(** * plot_load_test_results.py: load-test result plots

    A shallow embedding of the script [plot_load_test_results.py] and the
    properties of its specification.

    The script is straight-line Python over three libraries (pandas, os,
    matplotlib.pyplot).  Its effects are modelled by a state-and-exception
    monad [Py]: the state holds the file system, the style sheets the
    plotting library ships, the open figures, the console and a
    chronological log of the library calls that completed.  An exception
    leaves the state as it was when it was raised, as in Python.

    The libraries are modelled as far as the script depends on them: the
    load fails on a missing file, the directory creation on a file in the
    way, the style on a sheet that is not installed, a save on a missing
    directory or a directory in the way.  Permissions, disk space and the
    pixels of a rendered image are outside the model. *)

From stdpp Require Import base option list strings gmap.
From Stdlib Require Import Strings.Ascii QArith.QArith_base.

#[local] Close Scope Q_scope.
#[local] Set Warnings "-clear-no-such-hyp".

(** ** Data model *)

(** The two metrics are only read and handed to the plotting library; no
    arithmetic is done on them, so a rational stands for the parsed value. *)
Definition number : Type := Q.

(** One data row of [summary.csv], with the four columns the script reads;
    as in the results table of the specification, every row has all four
    fields. *)
Record row := Row {
  Workload : string;
  Threads : Z;
  AvgThroughput : number;
  AvgResponseTime : number }.

Abbreviation table := (list row).

(** One line series, as passed to [plt.plot]. *)
Record line := Line {
  xdata : list Z;
  ydata : list number;
  marker : string;
  label : string;
  color : string }.

(** The points a line goes through. *)
Definition points (l : line) : list (Z * number) := zip (xdata l) (ydata l).

(** A figure; [fig_size = None] is the library's default size. *)
Record chart := Chart {
  fig_size : option (Z * Z);
  fig_lines : list line;
  fig_xlabel : string;
  fig_ylabel : string;
  fig_title : string;
  fig_legend : bool }.

Definition new_chart (size : option (Z * Z)) : chart :=
  Chart size [] "" "" "" false.

(** What a path of the file system holds.  [CsvFile t] is a results file
    with the four columns, parsed; [Png sty c] is figure [c] rendered under
    the style sheets [sty]. *)
Inductive node :=
| CsvFile (t : table)
| Directory
| Png (sty : list string) (c : chart).

Inductive exn :=
| FileNotFoundError (p : string)
| IsADirectoryError (p : string)
| FileExistsError (p : string)
| UnicodeDecodeError
| OSError (msg : string)
| IndexError.

(** Library calls that completed, in the order they happened. *)
Inductive event :=
| ReadCsv (p : string)
| Makedirs (p : string)
| StyleUse (name : string)
| NewFigure
| Plot (l : line)
| SetXlabel (s : string)
| SetYlabel (s : string)
| SetTitle (s : string)
| Legend
| Savefig (p : string)
| Close
| Print (s : string).

Record state := State {
  fs : gmap string node;
  styles : gset string;
  rc : list string;
  figs : list chart;
  stdout : list string;
  log : list event }.

(** ** The monad *)

Inductive outcome (A : Type) :=
| Returned (a : A)
| Raised (e : exn).
Arguments Returned {A} a.
Arguments Raised {A} e.

Definition Py (A : Type) : Type := state → outcome A * state.

#[export] Instance Py_ret : MRet Py := λ A a s, (Returned a, s).

#[export] Instance Py_bind : MBind Py := λ A B f m s,
  match m s with
  | (Returned a, s') => f a s'
  | (Raised e, s') => (Raised e, s')
  end.

Definition raise {A} (e : exn) : Py A := λ s, (Raised e, s).

Definition emit (ev : event) (s : state) : state :=
  State (fs s) (styles s) (rc s) (figs s) (stdout s) (log s ++ [ev]).

Definition set_fs (m : gmap string node) (s : state) : state :=
  State m (styles s) (rc s) (figs s) (stdout s) (log s).

Definition set_rc (r : list string) (s : state) : state :=
  State (fs s) (styles s) r (figs s) (stdout s) (log s).

Definition set_figs (fg : list chart) (s : state) : state :=
  State (fs s) (styles s) (rc s) fg (stdout s) (log s).

Definition set_stdout (out : list string) (s : state) : state :=
  State (fs s) (styles s) (rc s) (figs s) out (log s).

(** ** Python built-ins *)

(** [enumerate(l, start)] *)
Fixpoint enumerate_from {A} (start : nat) (l : list A) : list (nat * A) :=
  match l with
  | [] => []
  | x :: l' => (start, x) :: enumerate_from (S start) l'
  end.

Definition enumerate {A} (l : list A) : list (nat * A) := enumerate_from 0 l.

(** [for x in l: body] *)
Fixpoint for_in {A} (l : list A) (body : A → Py unit) : Py unit :=
  match l with
  | [] => mret tt
  | x :: l' => body x;; for_in l' body
  end.

(** [l[i]] for a non-negative index: out of range raises [IndexError]. *)
Definition getitem {A} (l : list A) (i : nat) : Py A :=
  match l !! i with
  | Some x => mret x
  | None => raise IndexError
  end.

(** [print(msg)] *)
Definition print (msg : string) : Py unit := λ s,
  (Returned tt, emit (Print msg) (set_stdout (stdout s ++ [msg]) s)).

(** ** pandas *)

(** [Series.unique()]: the values in order of appearance; a hash set
    remembers the values met so far. *)
Fixpoint unique_from (seen : gset string) (l : list string) : list string :=
  match l with
  | [] => []
  | x :: l' =>
      if decide (x ∈ seen) then unique_from seen l'
      else x :: unique_from ({[x]} ∪ seen) l'
  end.

Definition unique (l : list string) : list string := unique_from ∅ l.

Module pd.

(** [pd.read_csv(path)] *)
Definition read_csv (path : string) : Py table := λ s,
  match fs s !! path with
  | Some (CsvFile t) => (Returned t, emit (ReadCsv path) s)
  | Some Directory => (Raised (IsADirectoryError path), s)
  | Some (Png _ _) => (Raised UnicodeDecodeError, s)
  | None => (Raised (FileNotFoundError path), s)
  end.

End pd.

(** ** os *)

Module os.

(** [os.makedirs(path, exist_ok=...)].  Only the leaf is tracked: the
    script's leaf lies in the directory it has just read its input
    from. *)
Definition makedirs (path : string) (exist_ok : bool) : Py unit := λ s,
  match fs s !! path with
  | None => (Returned tt, emit (Makedirs path) (set_fs (<[path := Directory]> (fs s)) s))
  | Some Directory =>
      if exist_ok then (Returned tt, emit (Makedirs path) s)
      else (Raised (FileExistsError path), s)
  | Some _ => (Raised (FileExistsError path), s)
  end.

(** [os.path.dirname]: what precedes the last slash. *)
Fixpoint dirname_rev (r : list Ascii.ascii) : list Ascii.ascii :=
  match r with
  | [] => []
  | a :: r' => if decide (a = "/"%char) then r' else dirname_rev r'
  end.

Definition dirname (path : string) : string :=
  String.string_of_list_ascii
    (rev (dirname_rev (rev (String.list_ascii_of_string path)))).

End os.

(** ** matplotlib.pyplot *)

Module plt.

Module style.
(** [plt.style.use(name)]: an unknown style sheet is an [OSError]. *)
Definition use (name : string) : Py unit := λ s,
    if decide (name ∈ styles s)
    then (Returned tt, emit (StyleUse name) (set_rc (name :: rc s) s))
    else (Raised (OSError name), s).
End style.

(** The current figure is the head of [figs]; pyplot opens a figure of
    the default size when there is none. *)
Definition on_current (f : chart → chart) (s : state) : state :=
  match figs s with
  | [] => set_figs [f (new_chart None)] s
  | c :: cs => set_figs (f c :: cs) s
  end.

Definition current (s : state) : chart :=
  match figs s with
  | [] => new_chart None
  | c :: _ => c
  end.

(** [plt.figure(figsize=(w, h))] *)
Definition figure (figsize : Z * Z) : Py unit := λ s,
  (Returned tt, emit NewFigure (set_figs (new_chart (Some figsize) :: figs s) s)).

Definition add_line (l : line) (c : chart) : chart :=
  Chart (fig_size c) (fig_lines c ++ [l]) (fig_xlabel c) (fig_ylabel c)
        (fig_title c) (fig_legend c).

(** [plt.plot(x, y, marker=..., label=..., color=...)] *)
Definition plot (x : list Z) (y : list number)
    (marker label color : string) : Py unit := λ s,
  let l := Line x y marker label color in
  (Returned tt, emit (Plot l) (on_current (add_line l) s)).

Definition xlabel (t : string) : Py unit := λ s,
  (Returned tt, emit (SetXlabel t) (on_current (λ c,
     Chart (fig_size c) (fig_lines c) t (fig_ylabel c) (fig_title c) (fig_legend c)) s)).

Definition ylabel (t : string) : Py unit := λ s,
  (Returned tt, emit (SetYlabel t) (on_current (λ c,
     Chart (fig_size c) (fig_lines c) (fig_xlabel c) t (fig_title c) (fig_legend c)) s)).

Definition title (t : string) : Py unit := λ s,
  (Returned tt, emit (SetTitle t) (on_current (λ c,
     Chart (fig_size c) (fig_lines c) (fig_xlabel c) (fig_ylabel c) t (fig_legend c)) s)).

Definition legend : Py unit := λ s,
  (Returned tt, emit Legend (on_current (λ c,
     Chart (fig_size c) (fig_lines c) (fig_xlabel c) (fig_ylabel c) (fig_title c) true) s)).

(** [plt.savefig(path)]: renders the current figure into [path],
    replacing a file that is there; the directory must exist. *)
Definition savefig (path : string) : Py unit := λ s,
  match fs s !! os.dirname path with
  | Some Directory =>
      match fs s !! path with
      | Some Directory => (Raised (IsADirectoryError path), s)
      | _ =>
          let s1 := on_current id s in
          (Returned tt,
           emit (Savefig path) (set_fs (<[path := Png (rc s1) (current s1)]> (fs s1)) s1))
      end
  | _ => (Raised (FileNotFoundError path), s)
  end.

(** [plt.close()]: closes the current figure, if any. *)
Definition close : Py unit := λ s,
  (Returned tt, emit Close (set_figs (tail (figs s)) s)).

End plt.

(** ** The script *)

Definition colors : list string := ["tab:blue"; "tab:orange"; "tab:green"; "tab:red"].

Definition script : Py unit :=
  (* Load CSV file *)
  df ← pd.read_csv "./load_test_results/summary.csv";
  (* Workloads to plot *)
  let workloads := unique (Workload <$> df) in
  (* Create plots directory *)
  os.makedirs "./load_test_results/plots" true;;
  (* Plot config *)
  plt.style.use "seaborn-darkgrid";;
  (* Plot Throughput vs Threads for each workload *)
  plt.figure (10, 6)%Z;;
  for_in (enumerate workloads) (λ '(i, workload),
    let wdf := filter (λ r, Workload r = workload) df in
    c ← getitem colors i;
    plt.plot (Threads <$> wdf) (AvgThroughput <$> wdf) "o" workload c);;
  plt.xlabel "Number of Clients (Threads)";;
  plt.ylabel "Average Throughput (requests/sec)";;
  plt.title "Number of Clients vs Throughput";;
  plt.legend;;
  plt.savefig "./load_test_results/plots/clients_vs_throughput.png";;
  plt.close;;
  (* Plot Avg Response Time vs Threads for each workload *)
  plt.figure (10, 6)%Z;;
  for_in (enumerate workloads) (λ '(i, workload),
    let wdf := filter (λ r, Workload r = workload) df in
    c ← getitem colors i;
    plt.plot (Threads <$> wdf) (AvgResponseTime <$> wdf) "o" workload c);;
  plt.xlabel "Number of Clients (Threads)";;
  plt.ylabel "Average Response Time (ms)";;
  plt.title "Number of Clients vs Average Response Time";;
  plt.legend;;
  plt.savefig "./load_test_results/plots/clients_vs_response_time.png";;
  plt.close;;
  print "Plots saved to ./load_test_results/plots/".

(** A run starts in a fresh interpreter: no style applied, no figure
    open, nothing printed or logged.  Only the file system and the
    installed style sheets come from outside. *)
Definition boot (files : gmap string node) (installed : gset string) : state :=
  State files installed [] [] [] [].

Definition run (files : gmap string node) (installed : gset string)
  : outcome unit * state :=
  script (boot files installed).

(** The status of the process: an uncaught exception ends the interpreter
    with status 1. *)
Definition exit_status {A} (o : outcome A) : Z :=
  match o with
  | Returned _ => 0
  | Raised _ => 1
  end.

(** ** Paths and texts the script names *)

Abbreviation csv_path := "./load_test_results/summary.csv" (only parsing).
Abbreviation plots_dir := "./load_test_results/plots" (only parsing).
Abbreviation thr_png := "./load_test_results/plots/clients_vs_throughput.png" (only parsing).
Abbreviation rt_png := "./load_test_results/plots/clients_vs_response_time.png" (only parsing).
Abbreviation darkgrid := "seaborn-darkgrid" (only parsing).
Abbreviation success_msg := "Plots saved to ./load_test_results/plots/" (only parsing).

(** ** What a run needs from outside

    The input file holds table [t]; nothing but a directory may sit at the
    plots path; the style sheet is installed; no directory sits where an
    image goes. *)
Record ready (files : gmap string node) (installed : gset string) (t : table) : Prop := {
  ready_input : files !! csv_path = Some (CsvFile t);
  ready_dir : files !! plots_dir = None ∨ files !! plots_dir = Some Directory;
  ready_style : darkgrid ∈ installed;
  ready_thr : files !! thr_png ≠ Some Directory;
  ready_rt : files !! rt_png ≠ Some Directory }.

(** ** Closed forms of what the loops draw *)

(** The body of either plot loop, for the metric column it reads. *)
Definition plot_workload (metric : row → number) (df : table) : nat * string → Py unit :=
  λ '(i, workload),
    let wdf := filter (λ r, Workload r = workload) df in
    c ← getitem colors i;
    plt.plot (Threads <$> wdf) (metric <$> wdf) "o" workload c.

(** The line one iteration draws. *)
Definition series (metric : row → number) (df : table) (workload c : string) : line :=
  let wdf := filter (λ r, Workload r = workload) df in
  Line (Threads <$> wdf) (metric <$> wdf) "o" workload c.

(** The lines a loop draws from index [i] on, until the palette runs out. *)
Fixpoint lines_from (metric : row → number) (df : table) (i : nat) (ws : list string)
  : list line :=
  match ws with
  | [] => []
  | w :: ws' =>
      match colors !! i with
      | Some c => series metric df w c :: lines_from metric df (S i) ws'
      | None => []
      end
  end.

Definition workloads_of (df : table) : list string := unique (Workload <$> df).

Definition drawn (metric : row → number) (df : table) : list line :=
  lines_from metric df 0 (workloads_of df).

Definition throughput_chart (df : table) : chart :=
  Chart (Some (10, 6)%Z) (drawn AvgThroughput df)
        "Number of Clients (Threads)" "Average Throughput (requests/sec)"
        "Number of Clients vs Throughput" true.

Definition response_time_chart (df : table) : chart :=
  Chart (Some (10, 6)%Z) (drawn AvgResponseTime df)
        "Number of Clients (Threads)" "Average Response Time (ms)"
        "Number of Clients vs Average Response Time" true.

(** The log of a run that gets through the first loop, and of one that
    does not. *)
Definition log_until_loop : list event :=
  [ReadCsv csv_path; Makedirs plots_dir; StyleUse darkgrid; NewFigure].

Definition log_success (df : table) : list event :=
  log_until_loop ++ (Plot <$> drawn AvgThroughput df) ++
  [SetXlabel "Number of Clients (Threads)";
   SetYlabel "Average Throughput (requests/sec)";
   SetTitle "Number of Clients vs Throughput"; Legend;
   Savefig thr_png; Close; NewFigure] ++
  (Plot <$> drawn AvgResponseTime df) ++
  [SetXlabel "Number of Clients (Threads)";
   SetYlabel "Average Response Time (ms)";
   SetTitle "Number of Clients vs Average Response Time"; Legend;
   Savefig rt_png; Close; Print success_msg].

Definition log_failure (df : table) : list event :=
  log_until_loop ++ (Plot <$> drawn AvgThroughput df).

(** One drawn line, as a state change. *)
Definition draw (s : state) (l : line) : state :=
  emit (Plot l) (plt.on_current (plt.add_line l) s).

Definition files_success (files : gmap string node) (t : table) : gmap string node :=
  <[rt_png := Png [darkgrid] (response_time_chart t)]>
    (<[thr_png := Png [darkgrid] (throughput_chart t)]>
       (<[plots_dir := Directory]> files)).

Definition state_success files installed t : state :=
  State (files_success files t) installed [darkgrid] [] [success_msg] (log_success t).

(** After a palette failure the first figure is still open, unlabelled. *)
Definition state_failure files installed t : state :=
  State (<[plots_dir := Directory]> files) installed [darkgrid]
        [Chart (Some (10, 6)%Z) (drawn AvgThroughput t) "" "" "" false]
        [] (log_failure t).

(** The specification's words for the grouper's list: the distinct values
    of [l], each once, in first-occurrence order. *)
Definition first_occurrence_order (l u : list string) : Prop :=
  NoDup u ∧
  (∀ x, x ∈ u ↔ x ∈ l) ∧
  (∀ i j x y, i < j → u !! i = Some x → u !! j = Some y →
     ∃ p q, l = p ++ (x :: q) ∧ (x ∉ p) ∧ (y ∉ p)).

(** The number of distinct workloads of a table, as a set's size. *)
Definition distinct_workloads (t : table) : nat :=
  size (list_to_set (Workload <$> t) : gset string).

(** The paths saved to, in order. *)
Fixpoint saved (tr : list event) : list string :=
  match tr with
  | [] => []
  | Savefig p :: tr' => p :: saved tr'
  | _ :: tr' => saved tr'
  end.

(** The lines plotted until the next figure is opened. *)
Fixpoint lines_until_figure (tr : list event) : list line :=
  match tr with
  | [] => []
  | NewFigure :: _ => []
  | Plot l :: tr' => l :: lines_until_figure tr'
  | _ :: tr' => lines_until_figure tr'
  end.

(** For each figure opened, in order, the lines plotted into it. *)
Fixpoint figures_drawn (tr : list event) : list (list line) :=
  match tr with
  | [] => []
  | NewFigure :: tr' => lines_until_figure tr' :: figures_drawn tr'
  | _ :: tr' => figures_drawn tr'
  end.

(** A file system that holds the input file and nothing else. *)
Definition only_input (t : table) : gmap string node := {[ csv_path := CsvFile t ]}.

Definition with_darkgrid : gset string := {[ darkgrid ]}.

(** One row per workload name, at one thread. *)
Definition one_row_each (names : list string) : table :=
  (λ w, Row w 1 (Qmake 100 1) (Qmake 10 1)) <$> names.

Definition five_workloads : table := one_row_each ["A"; "B"; "C"; "D"; "E"].

Definition example_rows : table :=
  [Row "A" 1 (Qmake 100 1) (Qmake 10 1); Row "A" 2 (Qmake 190 1) (Qmake 12 1)].

(** The specification's words for a workload's rows: the rows of [t] of
    workload [w], in the order they have in [t]. *)
Inductive rows_of (w : string) : table → list row → Prop :=
| rows_of_nil : rows_of w [] []
| rows_of_keep r t rs :
    Workload r = w → rows_of w t rs → rows_of w (r :: t) (r :: rs)
| rows_of_skip r t rs :
    Workload r ≠ w → rows_of w t rs → rows_of w (r :: t) rs.

(** The metric column of the [k]-th chart. *)
Definition chart_metric (k : nat) : row → number :=
  match k with
  | 0 => AvgThroughput
  | _ => AvgResponseTime
  end.

Definition three_workloads : table :=
  [Row "get" 1 (Qmake 100 1) (Qmake 10 1); Row "put" 1 (Qmake 80 1) (Qmake 12 1);
   Row "get" 2 (Qmake 190 1) (Qmake 11 1); Row "mix" 1 (Qmake 90 1) (Qmake 11 1);
   Row "put" 2 (Qmake 150 1) (Qmake 13 1)].

(** A second environment for the same table: stale files are around and
    more style sheets are installed. *)
Definition used_before (t : table) : gmap string node :=
  <[thr_png := Png [] (new_chart None)]> (<[plots_dir := Directory]> (only_input t)).

Definition more_styles : gset string := {[ darkgrid; "ggplot" ]}.

Definition six_workloads : table := one_row_each ["A"; "B"; "C"; "D"; "E"; "F"].

(** ** The ways a run can end

    The log when the first save is refused, and when the second is. *)
Definition log_first_save (df : table) : list event :=
  log_until_loop ++ (Plot <$> drawn AvgThroughput df) ++
  [SetXlabel "Number of Clients (Threads)";
   SetYlabel "Average Throughput (requests/sec)";
   SetTitle "Number of Clients vs Throughput"; Legend].

Definition log_second_save (df : table) : list event :=
  log_until_loop ++ (Plot <$> drawn AvgThroughput df) ++
  [SetXlabel "Number of Clients (Threads)";
   SetYlabel "Average Throughput (requests/sec)";
   SetTitle "Number of Clients vs Throughput"; Legend;
   Savefig thr_png; Close; NewFigure] ++
  (Plot <$> drawn AvgResponseTime df) ++
  [SetXlabel "Number of Clients (Threads)";
   SetYlabel "Average Response Time (ms)";
   SetTitle "Number of Clients vs Average Response Time"; Legend].

(** Every way the script can end, with the state it ends in: at the
    load (three ways), at the directory creation, at the style, in the
    first loop, at either save, or by returning. *)
Inductive ends (files : gmap string node) (installed : gset string)
  : outcome unit → state → Prop :=
| ends_input_missing :
    files !! csv_path = None →
    ends files installed (Raised (FileNotFoundError csv_path)) (boot files installed)
| ends_input_directory :
    files !! csv_path = Some Directory →
    ends files installed (Raised (IsADirectoryError csv_path)) (boot files installed)
| ends_input_image sty c :
    files !! csv_path = Some (Png sty c) →
    ends files installed (Raised UnicodeDecodeError) (boot files installed)
| ends_plots_blocked t :
    files !! csv_path = Some (CsvFile t) →
    files !! plots_dir ≠ None → files !! plots_dir ≠ Some Directory →
    ends files installed (Raised (FileExistsError plots_dir))
         (State files installed [] [] [] [ReadCsv csv_path])
| ends_style_missing t :
    files !! csv_path = Some (CsvFile t) →
    files !! plots_dir = None ∨ files !! plots_dir = Some Directory →
    darkgrid ∉ installed →
    ends files installed (Raised (OSError darkgrid))
         (State (<[plots_dir := Directory]> files) installed [] [] []
                [ReadCsv csv_path; Makedirs plots_dir])
| ends_palette t :
    files !! csv_path = Some (CsvFile t) →
    files !! plots_dir = None ∨ files !! plots_dir = Some Directory →
    darkgrid ∈ installed →
    4 < length (workloads_of t) →
    ends files installed (Raised IndexError) (state_failure files installed t)
| ends_first_save t :
    files !! csv_path = Some (CsvFile t) →
    files !! plots_dir = None ∨ files !! plots_dir = Some Directory →
    darkgrid ∈ installed →
    length (workloads_of t) ≤ 4 →
    files !! thr_png = Some Directory →
    ends files installed (Raised (IsADirectoryError thr_png))
         (State (<[plots_dir := Directory]> files) installed [darkgrid]
                [throughput_chart t] [] (log_first_save t))
| ends_second_save t :
    files !! csv_path = Some (CsvFile t) →
    files !! plots_dir = None ∨ files !! plots_dir = Some Directory →
    darkgrid ∈ installed →
    length (workloads_of t) ≤ 4 →
    files !! thr_png ≠ Some Directory →
    files !! rt_png = Some Directory →
    ends files installed (Raised (IsADirectoryError rt_png))
         (State (<[thr_png := Png [darkgrid] (throughput_chart t)]>
                   (<[plots_dir := Directory]> files))
                installed [darkgrid] [response_time_chart t] [] (log_second_save t))
| ends_returned t :
    ready files installed t →
    length (workloads_of t) ≤ 4 →
    ends files installed (Returned tt) (state_success files installed t).

(** The lines plotted, in order, whatever the figure. *)
Fixpoint plotted (tr : list event) : list line :=
  match tr with
  | [] => []
  | Plot l :: tr' => l :: plotted tr'
  | _ :: tr' => plotted tr'
  end.

(** The pair a row contributes to a chart of the given metric. *)
Definition point_of (metric : row → number) (r : row) : Z * number :=
  (Threads r, metric r).

(** Sample environments: a regular file sits at the plots path. *)
Definition plots_is_a_file (t : table) : gmap string node :=
  <[plots_dir := Png [] (new_chart None)]> (only_input t).

(** ** Running the monad *)

Lemma bind_run {A B} (m : Py A) (f : A → Py B) (s : state) :
  (m ≫= f) s =
  match m s with
  | (Returned a, s') => f a s'
  | (Raised e, s') => (Raised e, s')
  end.
Proof. reflexivity. Qed.

Lemma colors_lookup_ge (i : nat) : 4 ≤ i → colors !! i = None.
Proof. intros H. apply lookup_ge_None_2. simpl. lia. Qed.

Lemma colors_lookup_lt (i : nat) : i < 4 → is_Some (colors !! i).
Proof. intros H. apply lookup_lt_is_Some_2. simpl. lia. Qed.

(** The loop: it returns when the palette suffices and raises
    [IndexError] otherwise; either way the lines of [lines_from] have been
    drawn, and nothing else has changed. *)
Lemma for_in_plot_workload metric df ws : ∀ i s,
  i ≤ 4 →
  for_in (enumerate_from i ws) (plot_workload metric df) s =
  ((if decide (i + length ws ≤ 4) then Returned tt else Raised IndexError),
   foldl draw s (lines_from metric df i ws)).
Proof.
  induction ws as [|w ws IH]; intros i s Hi.
  - simpl. by rewrite decide_True by lia.
  - cbn [enumerate_from for_in lines_from length].
    destruct (decide (i < 4)) as [Hlt|Hge].
    + destruct (colors_lookup_lt i Hlt) as [c Hc].
      rewrite bind_run. unfold plot_workload at 1. rewrite bind_run.
      unfold getitem. rewrite Hc. cbn [mret Py_ret plt.plot].
      rewrite IH by lia. cbn [foldl]. unfold draw at 2, series.
      f_equal. repeat case_decide; done || lia.
    + rewrite bind_run. unfold plot_workload at 1. rewrite bind_run.
      unfold getitem. rewrite colors_lookup_ge by lia.
      cbn [raise foldl]. by rewrite decide_False by lia.
Qed.

(** Drawing into an open figure adds the lines to it and to the log. *)
Lemma foldl_draw ls : ∀ m st r c cs out lg,
  foldl draw (State m st r (c :: cs) out lg) ls =
  State m st r
    (Chart (fig_size c) (fig_lines c ++ ls) (fig_xlabel c) (fig_ylabel c)
           (fig_title c) (fig_legend c) :: cs)
    out (lg ++ (Plot <$> ls)).
Proof.
  induction ls as [|l ls IH]; intros m st r c cs out lg.
  - simpl. rewrite !app_nil_r. by destruct c.
  - cbn [foldl]. unfold draw at 2, plt.on_current, emit, set_figs, plt.add_line.
    cbn. rewrite IH. cbn.
    by rewrite <- !app_assoc.
Qed.

(** ** The library calls, one at a time *)

Lemma makedirs_ready (m : gmap string node) st r fg out lg :
  m !! plots_dir = None ∨ m !! plots_dir = Some Directory →
  os.makedirs plots_dir true (State m st r fg out lg) =
  (Returned tt, State (<[plots_dir := Directory]> m) st r fg out (lg ++ [Makedirs plots_dir])).
Proof.
  intros [H|H]; unfold os.makedirs; cbn [fs]; rewrite H; [done|].
  unfold emit; cbn. by rewrite insert_id.
Qed.

Lemma makedirs_blocked p (m : gmap string node) st r fg out lg :
  m !! p ≠ None → m !! p ≠ Some Directory →
  os.makedirs p true (State m st r fg out lg) =
  (Raised (FileExistsError p), State m st r fg out lg).
Proof. intros H1 H2. unfold os.makedirs. cbn [fs]. by destruct (m !! p) as [[]|]. Qed.

Lemma makedirs_cases (o : option node) :
  (o = None ∨ o = Some Directory) ∨ (o ≠ None ∧ o ≠ Some Directory).
Proof. destruct o as [[]|]; auto. Qed.

Lemma dirname_thr_png : os.dirname thr_png = plots_dir.
Proof. reflexivity. Qed.

Lemma dirname_rt_png : os.dirname rt_png = plots_dir.
Proof. reflexivity. Qed.

(** [savefig] into the plots directory, with a figure open. *)
Lemma savefig_ready (p : string) (m : gmap string node) st r c cs out lg :
  m !! os.dirname p = Some Directory →
  m !! p ≠ Some Directory →
  plt.savefig p (State m st r (c :: cs) out lg) =
  (Returned tt, State (<[p := Png r c]> m) st r (c :: cs) out (lg ++ [Savefig p])).
Proof.
  intros Hd Hp. unfold plt.savefig. cbn [fs]. rewrite Hd.
  destruct (m !! p) as [[]|]; done.
Qed.

Lemma savefig_blocked p (m : gmap string node) st r fg out lg :
  m !! os.dirname p = Some Directory →
  m !! p = Some Directory →
  plt.savefig p (State m st r fg out lg) =
  (Raised (IsADirectoryError p), State m st r fg out lg).
Proof. intros Hd Hp. unfold plt.savefig. cbn [fs]. by rewrite Hd, Hp. Qed.

Lemma directory_or_not (o : option node) : o = Some Directory ∨ o ≠ Some Directory.
Proof. destruct o as [[]|]; auto. Qed.

Lemma style_use_run name (m : gmap string node) (st : gset string) r fg out lg :
  name ∈ st →
  plt.style.use name (State m st r fg out lg) =
  (Returned tt, State m st (name :: r) fg out (lg ++ [StyleUse name])).
Proof. intros H. unfold plt.style.use. cbn [styles]. by rewrite decide_True. Qed.

Lemma style_use_missing name (m : gmap string node) (st : gset string) r fg out lg :
  name ∉ st →
  plt.style.use name (State m st r fg out lg) =
  (Raised (OSError name), State m st r fg out lg).
Proof. intros H. unfold plt.style.use. cbn [styles]. by rewrite decide_False. Qed.

Lemma figure_run sz (m : gmap string node) st r fg out lg :
  plt.figure sz (State m st r fg out lg) =
  (Returned tt, State m st r (new_chart (Some sz) :: fg) out (lg ++ [NewFigure])).
Proof. reflexivity. Qed.

Lemma xlabel_run txt (m : gmap string node) st r c cs out lg :
  plt.xlabel txt (State m st r (c :: cs) out lg) =
  (Returned tt,
   State m st r
     (Chart (fig_size c) (fig_lines c) txt (fig_ylabel c) (fig_title c) (fig_legend c) :: cs)
     out (lg ++ [SetXlabel txt])).
Proof. reflexivity. Qed.

Lemma ylabel_run txt (m : gmap string node) st r c cs out lg :
  plt.ylabel txt (State m st r (c :: cs) out lg) =
  (Returned tt,
   State m st r
     (Chart (fig_size c) (fig_lines c) (fig_xlabel c) txt (fig_title c) (fig_legend c) :: cs)
     out (lg ++ [SetYlabel txt])).
Proof. reflexivity. Qed.

Lemma title_run txt (m : gmap string node) st r c cs out lg :
  plt.title txt (State m st r (c :: cs) out lg) =
  (Returned tt,
   State m st r
     (Chart (fig_size c) (fig_lines c) (fig_xlabel c) (fig_ylabel c) txt (fig_legend c) :: cs)
     out (lg ++ [SetTitle txt])).
Proof. reflexivity. Qed.

Lemma legend_run (m : gmap string node) st r c cs out lg :
  plt.legend (State m st r (c :: cs) out lg) =
  (Returned tt,
   State m st r
     (Chart (fig_size c) (fig_lines c) (fig_xlabel c) (fig_ylabel c) (fig_title c) true :: cs)
     out (lg ++ [Legend])).
Proof. reflexivity. Qed.

Lemma close_run (m : gmap string node) st r fg out lg :
  plt.close (State m st r fg out lg) =
  (Returned tt, State m st r (tail fg) out (lg ++ [Close])).
Proof. reflexivity. Qed.

Lemma print_run msg (m : gmap string node) st r fg out lg :
  print msg (State m st r fg out lg) =
  (Returned tt, State m st r fg (out ++ [msg]) (lg ++ [Print msg])).
Proof. reflexivity. Qed.

Ltac step_with lem := rewrite bind_run, lem; cbv beta iota.

Ltac step :=
  first
    [ step_with figure_run | step_with xlabel_run | step_with ylabel_run
    | step_with title_run | step_with legend_run | step_with close_run ];
  cbn [fig_size fig_lines fig_xlabel fig_ylabel fig_title fig_legend new_chart tail].

(** ** The whole run, in closed form *)

Theorem run_ready files installed t :
  ready files installed t →
  run files installed =
  if decide (length (workloads_of t) ≤ 4)
  then (Returned tt, state_success files installed t)
  else (Raised IndexError, state_failure files installed t).
Proof.
  intros [Hin Hdir Hsty Hthr Hrt].
  assert (Hthr' : <[plots_dir := Directory]> files !! thr_png ≠ Some Directory)
    by (by rewrite lookup_insert_ne).
  assert (Hdir' : ∀ p x, p ≠ plots_dir →
            <[p := x]> (<[plots_dir := Directory]> files) !! plots_dir = Some Directory)
    by (intros p x Hp; rewrite lookup_insert_ne by done; apply lookup_insert_eq).
  unfold run, script, boot.
  rewrite bind_run. unfold pd.read_csv at 1. cbn [fs]. rewrite Hin.
  unfold emit at 1. cbn [fs styles rc figs stdout log].
  step_with makedirs_ready; [|done].
  step_with style_use_run; [|done].
  step.
  rewrite bind_run. unfold enumerate at 1.
  rewrite (for_in_plot_workload AvgThroughput t) by lia.
  rewrite foldl_draw.
  cbn [fig_size fig_lines fig_xlabel fig_ylabel fig_title fig_legend new_chart app].
  fold (workloads_of t). fold (drawn AvgThroughput t).
  destruct (decide (0 + length (workloads_of t) ≤ 4)) as [Hle|Hgt].
  - rewrite decide_True by lia.
    do 4 step.
    step_with savefig_ready; [|by rewrite dirname_thr_png, lookup_insert_eq|done].
    do 2 step.
    rewrite bind_run. unfold enumerate at 1.
    rewrite (for_in_plot_workload AvgResponseTime t) by lia.
    rewrite foldl_draw.
    cbn [fig_size fig_lines fig_xlabel fig_ylabel fig_title fig_legend new_chart app].
    fold (workloads_of t). fold (drawn AvgResponseTime t).
    rewrite decide_True by lia.
    do 4 step.
    step_with savefig_ready; [|by rewrite dirname_rt_png, Hdir'|].
    2:{ rewrite !lookup_insert_ne by done. done. }
    step. rewrite print_run.
    unfold state_success, files_success, log_success, log_until_loop.
    do 2 f_equal. cbn [app]. rewrite <- !app_assoc. reflexivity.
  - rewrite decide_False by lia.
    unfold state_failure, log_failure, log_until_loop. reflexivity.
Qed.

(** The input file is missing: the load raises and nothing has happened. *)
Lemma run_missing_input files installed :
  files !! csv_path = None →
  run files installed = (Raised (FileNotFoundError csv_path), boot files installed).
Proof.
  intros H. unfold run, script, boot.
  rewrite bind_run. unfold pd.read_csv. cbn [fs]. by rewrite H.
Qed.

(** What is at the two image paths after a run that fails in the first
    loop is what was there before. *)
Lemma state_failure_images files installed t :
  fs (state_failure files installed t) !! thr_png = files !! thr_png ∧
  fs (state_failure files installed t) !! rt_png = files !! rt_png.
Proof. cbn [state_failure fs]. by rewrite !lookup_insert_ne. Qed.

Lemma state_success_images files installed t :
  fs (state_success files installed t) !! thr_png
    = Some (Png [darkgrid] (throughput_chart t)) ∧
  fs (state_success files installed t) !! rt_png
    = Some (Png [darkgrid] (response_time_chart t)).
Proof.
  cbn [state_success fs]. unfold files_success. split.
  - rewrite lookup_insert_ne by done. apply lookup_insert_eq.
  - apply lookup_insert_eq.
Qed.

(** Running again on the files a successful run has left finds the
    environment ready and leaves the files as they are. *)
Lemma ready_files_success files installed t :
  ready files installed t → ready (files_success files t) installed t.
Proof.
  intros [Hin Hdir Hsty Hthr Hrt]. unfold files_success. split.
  - by rewrite !lookup_insert_ne.
  - right. rewrite !lookup_insert_ne by done. apply lookup_insert_eq.
  - done.
  - rewrite lookup_insert_ne by done. by rewrite lookup_insert_eq.
  - by rewrite lookup_insert_eq.
Qed.

Lemma files_success_idemp files t :
  files_success (files_success files t) t = files_success files t.
Proof.
  apply map_eq. intros p. unfold files_success.
  rewrite !lookup_insert. repeat case_decide; done.
Qed.

(** ** [unique] and [enumerate] *)

Lemma elem_of_unique_from (l : list string) : ∀ (seen : gset string) x,
  x ∈ unique_from seen l ↔ x ∈ l ∧ x ∉ seen.
Proof.
  induction l as [|a l IH]; intros seen x; simpl.
  - rewrite elem_of_nil. set_solver.
  - case_decide as Ha.
    + rewrite IH, elem_of_cons. split; [naive_solver|].
      intros [[->|Hx] Hs]; [done|by split].
    + rewrite !elem_of_cons, IH. split.
      * intros [->|[Hx Hs]]; [by split; [left|]|]. split; [by right|]. set_solver.
      * intros [[->|Hx] Hs]; [by left|].
        destruct (decide (x = a)) as [->|Hne]; [by left|]. right. split; [done|].
        set_solver.
Qed.

Lemma NoDup_unique_from (l : list string) : ∀ seen : gset string,
  NoDup (unique_from seen l).
Proof.
  induction l as [|a l IH]; intros seen; simpl; [constructor|].
  case_decide; [apply IH|]. constructor; [|apply IH].
  rewrite elem_of_unique_from. set_solver.
Qed.

(** Values come out in the order in which they first occur: if [x] stands
    before [y] in the result, [x] occurs in the input before any [y]. *)
Lemma unique_from_order (l : list string) : ∀ (seen : gset string) i j x y,
  i < j →
  unique_from seen l !! i = Some x →
  unique_from seen l !! j = Some y →
  ∃ p q, l = p ++ (x :: q) ∧ (x ∉ p) ∧ (y ∉ p).
Proof.
  induction l as [|a l IH]; intros seen i j x y Hij Hx Hy; simpl in *; [done|].
  case_decide as Ha.
  - destruct (IH _ _ _ _ _ Hij Hx Hy) as (p & q & -> & Hxp & Hyp).
    apply list_elem_of_lookup_2, elem_of_unique_from in Hx, Hy.
    exists (a :: p), q. rewrite !not_elem_of_cons.
    split; [done|]. split; (split; [set_solver|done]).
  - destruct i as [|i]; simpl in *.
    + simplify_eq. exists [], l. split; [done|]. split; apply not_elem_of_nil.
    + destruct j as [|j]; [lia|]. simpl in *.
      assert (Hij' : i < j) by lia.
      destruct (IH _ _ _ _ _ Hij' Hx Hy) as (p & q & -> & Hxp & Hyp).
      apply list_elem_of_lookup_2, elem_of_unique_from in Hx, Hy.
      exists (a :: p), q. rewrite !not_elem_of_cons.
      split; [done|]. split; (split; [set_solver|done]).
Qed.

Lemma unique_first_occurrence_order (l : list string) :
  first_occurrence_order l (unique l).
Proof.
  split; [apply NoDup_unique_from|]. split.
  - intros x. unfold unique. rewrite elem_of_unique_from. set_solver.
  - intros i j x y. apply unique_from_order.
Qed.

Lemma length_workloads_of (t : table) :
  length (workloads_of t) = distinct_workloads t.
Proof.
  unfold workloads_of, distinct_workloads.
  destruct (unique_first_occurrence_order (Workload <$> t)) as (Hnd & Hel & _).
  rewrite <- (size_list_to_set (C := gset string)) by done.
  f_equal. apply set_eq. intros x. by rewrite !elem_of_list_to_set.
Qed.

Lemma elem_of_enumerate_from {A} (l : list A) : ∀ start i x,
  (i, x) ∈ enumerate_from start l → start ≤ i < start + length l.
Proof.
  induction l as [|a l IH]; intros start i x; simpl.
  - by rewrite elem_of_nil.
  - rewrite elem_of_cons. intros [[= -> ->]|H]; [lia|].
    apply IH in H. lia.
Qed.

(** ** What the loops draw *)

Lemma lines_from_lookup metric df ws : ∀ i k,
  lines_from metric df i ws !! k =
  match ws !! k, colors !! (i + k) with
  | Some w, Some c => Some (series metric df w c)
  | _, _ => None
  end.
Proof.
  induction ws as [|w ws IH]; intros i k; simpl; [done|].
  destruct (colors !! i) as [c|] eqn:Hc.
  - destruct k as [|k]; simpl.
    + by rewrite Nat.add_0_r, Hc.
    + by rewrite IH, Nat.add_succ_r.
  - apply lookup_ge_None in Hc. simpl in Hc.
    rewrite (colors_lookup_ge (i + k)) by lia.
    by destruct ((w :: ws) !! k).
Qed.

Lemma label_lines_from metric df ws : ∀ i,
  label <$> lines_from metric df i ws = take (4 - i) ws.
Proof.
  induction ws as [|w ws IH]; intros i; simpl; [by rewrite take_nil|].
  destruct (decide (i < 4)) as [Hlt|Hge].
  - destruct (colors_lookup_lt i Hlt) as [c ->]. simpl. rewrite IH.
    by replace (4 - i) with (S (4 - S i)) by lia.
  - rewrite colors_lookup_ge by lia. by replace (4 - i) with 0 by lia.
Qed.

Lemma label_drawn metric df :
  label <$> drawn metric df = take 4 (workloads_of df).
Proof. apply label_lines_from. Qed.

Lemma drawn_lookup metric t k :
  drawn metric t !! k =
  match workloads_of t !! k, colors !! k with
  | Some w, Some c => Some (series metric t w c)
  | _, _ => None
  end.
Proof. apply lines_from_lookup. Qed.

Lemma elem_of_drawn metric t l :
  l ∈ drawn metric t →
  ∃ k w c, workloads_of t !! k = Some w ∧ colors !! k = Some c ∧
           l = series metric t w c.
Proof.
  intros [k Hk]%list_elem_of_lookup. rewrite drawn_lookup in Hk.
  destruct (workloads_of t !! k) as [w|] eqn:Hw; [|done].
  destruct (colors !! k) as [c|] eqn:Hc; [|done].
  exists k, w, c. by simplify_eq.
Qed.

Lemma drawn_full metric t :
  length (workloads_of t) ≤ 4 → label <$> drawn metric t = workloads_of t.
Proof. intros H. rewrite label_drawn. by apply take_ge. Qed.

Lemma NoDup_colors : NoDup colors.
Proof. by apply (bool_decide_unpack _). Qed.

Lemma filter_rows_of w (t : table) :
  rows_of w t (filter (λ r, Workload r = w) t).
Proof.
  induction t as [|r t IH]; [constructor|].
  rewrite filter_cons. case_decide; by constructor.
Qed.

Lemma rows_of_unique w t rs1 rs2 : rows_of w t rs1 → rows_of w t rs2 → rs1 = rs2.
Proof.
  intros H1. revert rs2.
  induction H1 as [|r t rs Hr _ IH|r t rs Hr _ IH];
    intros rs2 H2; inversion H2; subst; try done.
  - f_equal. by apply IH.
  - by apply IH.
Qed.

Lemma zip_fmap_same {A B C} (f : A → B) (g : A → C) (l : list A) :
  zip (f <$> l) (g <$> l) = (λ x, (f x, g x)) <$> l.
Proof. induction l as [|x l IH]; [done|]. rewrite !fmap_cons. cbn [zip_with]. by rewrite IH. Qed.

Lemma points_series metric df w c :
  points (series metric df w c) =
  (λ r, (Threads r, metric r)) <$> filter (λ r, Workload r = w) df.
Proof. apply zip_fmap_same. Qed.

(** The points of a drawn line are the rows of its workload, in order. *)
Lemma drawn_lines_rows metric t l :
  l ∈ drawn metric t →
  ∃ rs, rows_of (label l) t rs ∧
        points l = (λ r, (Threads r, metric r)) <$> rs.
Proof.
  intros (k & w & c & _ & _ & ->)%elem_of_drawn.
  eexists. split; [apply filter_rows_of|]. apply points_series.
Qed.

(** ** Reading a log *)

Lemma saved_app tr1 tr2 : saved (tr1 ++ tr2) = saved tr1 ++ saved tr2.
Proof.
  induction tr1 as [|ev tr1 IH]; [done|].
  destruct ev; simpl; by rewrite ?IH.
Qed.

Lemma saved_plots ls : saved (Plot <$> ls) = [].
Proof. by induction ls. Qed.

Lemma figures_drawn_plots ls tr :
  figures_drawn ((Plot <$> ls) ++ tr) = figures_drawn tr.
Proof. by induction ls. Qed.

Lemma lines_until_figure_plots ls tr :
  lines_until_figure ((Plot <$> ls) ++ tr) = ls ++ lines_until_figure tr.
Proof.
  induction ls as [|l ls IH]; [done|].
  rewrite fmap_cons. cbn [app lines_until_figure]. by rewrite IH.
Qed.

Lemma saved_log_success t : saved (log_success t) = [thr_png; rt_png].
Proof.
  unfold log_success, log_until_loop.
  rewrite !saved_app, !saved_plots. reflexivity.
Qed.

Lemma saved_log_failure t : saved (log_failure t) = [].
Proof.
  unfold log_failure, log_until_loop.
  rewrite !saved_app, !saved_plots. reflexivity.
Qed.

Lemma figures_drawn_log_success t :
  figures_drawn (log_success t) = [drawn AvgThroughput t; drawn AvgResponseTime t].
Proof.
  unfold log_success, log_until_loop. cbn [app figures_drawn].
  rewrite lines_until_figure_plots, figures_drawn_plots.
  cbn [app figures_drawn lines_until_figure].
  rewrite lines_until_figure_plots, figures_drawn_plots.
  cbn [app figures_drawn lines_until_figure]. by rewrite !app_nil_r.
Qed.

Lemma figures_drawn_log_failure t :
  figures_drawn (log_failure t) = [drawn AvgThroughput t].
Proof.
  unfold log_failure, log_until_loop. cbn [app figures_drawn].
  rewrite <- (app_nil_r (Plot <$> _)).
  rewrite lines_until_figure_plots, figures_drawn_plots.
  cbn [figures_drawn lines_until_figure]. by rewrite app_nil_r.
Qed.

(** Whatever the number of workloads, each figure drawn holds the lines
    of the first four workloads at most. *)
Lemma plotted_in_each_figure files installed t :
  ready files installed t →
  ∃ o s',
    run files installed = (o, s') ∧
    figures_drawn (log s') ≠ [] ∧
    ∀ k ls, figures_drawn (log s') !! k = Some ls →
      label <$> ls = take 4 (workloads_of t) ∧
      ∀ l, l ∈ ls →
        ∃ rs, rows_of (label l) t rs ∧
              points l = (λ r, (Threads r, chart_metric k r)) <$> rs.
Proof.
  intros Hready. rewrite (run_ready _ _ t) by done.
  case_decide as Hle; eexists _, _; (split; [reflexivity|]);
    cbn [state_success state_failure log].
  - rewrite figures_drawn_log_success. split; [done|].
    intros [|[|k]] ls Hk; simplify_eq/=;
      (split; [apply label_drawn|apply drawn_lines_rows]).
  - rewrite figures_drawn_log_failure. split; [done|].
    intros [|k] ls Hk; simplify_eq/=;
      (split; [apply label_drawn|apply drawn_lines_rows]).
Qed.

(** Closes a branch in which the run has stopped. *)
Ltac stopped :=
  eexists _, _; split; [reflexivity|]; cbn [log];
  repeat progress (rewrite ?saved_app, ?saved_plots; cbn [saved app]);
  split; [auto|by intros [=]].

(** ** Sample environments *)

Lemma ready_only_input t : ready (only_input t) with_darkgrid t.
Proof.
  unfold only_input, with_darkgrid. split.
  - apply lookup_singleton_eq.
  - left. by apply lookup_singleton_ne.
  - by apply elem_of_singleton.
  - by rewrite lookup_singleton_ne.
  - by rewrite lookup_singleton_ne.
Defined.

Lemma ready_used_before t : ready (used_before t) more_styles t.
Proof.
  unfold used_before, only_input, more_styles. split.
  - rewrite !lookup_insert_ne by done. apply lookup_singleton_eq.
  - right. rewrite lookup_insert_ne by done. apply lookup_insert_eq.
  - apply elem_of_union_l. by apply elem_of_singleton.
  - by rewrite lookup_insert_eq.
  - rewrite !lookup_insert_ne by done. by rewrite lookup_singleton_ne.
Defined.

(** * Properties of the specification *)

(** C1. For every input table with more than 4 distinct Workload values
    the run raises [IndexError] at the palette access for the fifth
    distinct workload: exactly the first four workloads have been plotted,
    all into the first figure, nothing has been saved, and what is at the
    two image paths is what was there before the run. *)
Theorem more_than_four_workloads_index_error files installed t :
  ready files installed t →
  4 < distinct_workloads t →
  ∃ s' ls,
    run files installed = (Raised IndexError, s') ∧
    figures_drawn (log s') = [ls] ∧
    label <$> ls = take 4 (workloads_of t) ∧
    length ls = 4 ∧
    colors !! length ls = None ∧
    saved (log s') = [] ∧
    fs s' !! thr_png = files !! thr_png ∧
    fs s' !! rt_png = files !! rt_png.
Proof.
  intros Hready Hmany. rewrite <- length_workloads_of in Hmany.
  exists (state_failure files installed t), (drawn AvgThroughput t).
  assert (Hlen : length (drawn AvgThroughput t) = 4).
  { rewrite <- (length_fmap label), label_drawn, length_take. lia. }
  split; [|split; [|split; [|split; [|split; [|split]]]]].
  - rewrite (run_ready _ _ t) by done. by rewrite decide_False by lia.
  - apply figures_drawn_log_failure.
  - apply label_drawn.
  - done.
  - by rewrite Hlen.
  - apply saved_log_failure.
  - apply state_failure_images.
Qed.

Lemma more_than_four_workloads_index_error_witness :
  ready (only_input five_workloads) with_darkgrid five_workloads ∧
  4 < distinct_workloads five_workloads ∧
  ∃ s' ls,
    run (only_input five_workloads) with_darkgrid = (Raised IndexError, s') ∧
    figures_drawn (log s') = [ls] ∧
    label <$> ls = take 4 (workloads_of five_workloads) ∧
    length ls = 4 ∧
    colors !! length ls = None ∧
    saved (log s') = [] ∧
    fs s' !! thr_png = only_input five_workloads !! thr_png ∧
    fs s' !! rt_png = only_input five_workloads !! rt_png.
Proof.
  assert (Hr : ready (only_input five_workloads) with_darkgrid five_workloads)
    by apply ready_only_input.
  assert (Hn : 4 < distinct_workloads five_workloads) by (vm_compute; lia).
  split; [exact Hr|]. split; [exact Hn|].
  exact (more_than_four_workloads_index_error _ _ _ Hr Hn).
Defined.

(** C2, as stated, fails on a table of five workloads: the one figure
    drawn holds the lines of A, B, C and D only, so its labels are not
    the distinct workloads of the table. *)
Lemma plotted_workloads_counterexample :
  ready (only_input five_workloads) with_darkgrid five_workloads ∧
  ∃ ls,
    ls ∈ figures_drawn (log (run (only_input five_workloads) with_darkgrid).2) ∧
    label <$> ls = ["A"; "B"; "C"; "D"] ∧
    ¬ first_occurrence_order (Workload <$> five_workloads) (label <$> ls).
Proof.
  split; [apply ready_only_input|].
  eexists. split; [|split].
  - assert (H : figures_drawn (log (run (only_input five_workloads) with_darkgrid).2)
               = [drawn AvgThroughput five_workloads]) by (by vm_compute).
    rewrite H. apply list_elem_of_singleton. reflexivity.
  - by vm_compute.
  - intros (_ & Hel & _).
    assert (HE : "E" ∈ Workload <$> five_workloads) by (by apply (bool_decide_unpack _)).
    apply Hel in HE. revert HE. by apply (bool_decide_unpack _).
Qed.

(** C2, amended.  For every input table with at most 4 distinct Workload
    values, the run draws two charts, and in each of them the sequence of
    plotted workloads is the distinct Workload values in first-occurrence
    order, and for each workload the plotted (Threads, metric) points are
    exactly that workload's rows in their original row order. *)
Theorem plotted_workloads_first_occurrence_order files installed t :
  ready files installed t →
  distinct_workloads t ≤ 4 →
  ∃ s',
    run files installed = (Returned tt, s') ∧
    length (figures_drawn (log s')) = 2 ∧
    ∀ k ls, figures_drawn (log s') !! k = Some ls →
      first_occurrence_order (Workload <$> t) (label <$> ls) ∧
      ∀ l, l ∈ ls →
        ∃ rs, rows_of (label l) t rs ∧
              points l = (λ r, (Threads r, chart_metric k r)) <$> rs.
Proof.
  intros Hready Hfew. rewrite <- length_workloads_of in Hfew.
  rewrite (run_ready _ _ t), decide_True by done.
  eexists. split; [reflexivity|]. cbn [state_success log].
  rewrite figures_drawn_log_success. split; [done|].
  intros [|[|k]] ls Hk; simplify_eq/=;
    (split; [rewrite drawn_full by done; apply unique_first_occurrence_order
            |apply drawn_lines_rows]).
Qed.

Lemma plotted_workloads_first_occurrence_order_witness :
  ready (only_input three_workloads) with_darkgrid three_workloads ∧
  distinct_workloads three_workloads ≤ 4 ∧
  ∃ s',
    run (only_input three_workloads) with_darkgrid = (Returned tt, s') ∧
    length (figures_drawn (log s')) = 2 ∧
    ∀ k ls, figures_drawn (log s') !! k = Some ls →
      first_occurrence_order (Workload <$> three_workloads) (label <$> ls) ∧
      ∀ l, l ∈ ls →
        ∃ rs, rows_of (label l) three_workloads rs ∧
              points l = (λ r, (Threads r, chart_metric k r)) <$> rs.
Proof.
  assert (Hr : ready (only_input three_workloads) with_darkgrid three_workloads)
    by apply ready_only_input.
  assert (Hn : distinct_workloads three_workloads ≤ 4) by (vm_compute; lia).
  split; [exact Hr|]. split; [exact Hn|].
  exact (plotted_workloads_first_occurrence_order _ _ _ Hr Hn).
Defined.

(** C3. For every input table with at most 4 distinct Workload values,
    every palette access [colors[i]] of the loops is in bounds, the run
    returns, both images have been saved and the success message is the
    one line printed. *)
Theorem at_most_four_workloads_success files installed t :
  ready files installed t →
  distinct_workloads t ≤ 4 →
  (∀ i w, (i, w) ∈ enumerate (workloads_of t) → is_Some (colors !! i)) ∧
  ∃ s',
    run files installed = (Returned tt, s') ∧
    fs s' !! thr_png = Some (Png [darkgrid] (throughput_chart t)) ∧
    fs s' !! rt_png = Some (Png [darkgrid] (response_time_chart t)) ∧
    saved (log s') = [thr_png; rt_png] ∧
    stdout s' = [success_msg].
Proof.
  intros Hready Hfew. rewrite <- length_workloads_of in Hfew. split.
  - intros i w Hin. apply elem_of_enumerate_from in Hin.
    apply colors_lookup_lt. lia.
  - exists (state_success files installed t).
    split; [|split; [|split; [|split]]].
    + rewrite (run_ready _ _ t) by done. by rewrite decide_True by lia.
    + apply state_success_images.
    + apply state_success_images.
    + apply saved_log_success.
    + done.
Qed.

Lemma at_most_four_workloads_success_witness :
  ready (only_input example_rows) with_darkgrid example_rows ∧
  distinct_workloads example_rows ≤ 4 ∧
  (∀ i w, (i, w) ∈ enumerate (workloads_of example_rows) → is_Some (colors !! i)) ∧
  ∃ s',
    run (only_input example_rows) with_darkgrid = (Returned tt, s') ∧
    fs s' !! thr_png = Some (Png [darkgrid] (throughput_chart example_rows)) ∧
    fs s' !! rt_png = Some (Png [darkgrid] (response_time_chart example_rows)) ∧
    saved (log s') = [thr_png; rt_png] ∧
    stdout s' = [success_msg].
Proof.
  assert (Hr : ready (only_input example_rows) with_darkgrid example_rows)
    by apply ready_only_input.
  assert (Hn : distinct_workloads example_rows ≤ 4) by (vm_compute; lia).
  split; [exact Hr|]. split; [exact Hn|].
  exact (at_most_four_workloads_success _ _ _ Hr Hn).
Defined.

(** C4. For every input table with 2 to 4 distinct workloads, each of the
    two charts saved has exactly one line per distinct workload (its
    labels are without repetition and are the Workload values of the
    table); the k-th workload in first-occurrence order has [colors[k]]
    in both charts; and over the lines of both charts, two lines have the
    same colour exactly when they have the same workload. *)
Theorem two_to_four_workloads_colors files installed t :
  ready files installed t →
  2 ≤ distinct_workloads t ≤ 4 →
  ∃ s' sty cT cR,
    run files installed = (Returned tt, s') ∧
    fs s' !! thr_png = Some (Png sty cT) ∧
    fs s' !! rt_png = Some (Png sty cR) ∧
    (∀ c, c ∈ [cT; cR] →
       NoDup (label <$> fig_lines c) ∧
       length (fig_lines c) = distinct_workloads t ∧
       ∀ w, w ∈ label <$> fig_lines c ↔ w ∈ Workload <$> t) ∧
    (∀ k w, workloads_of t !! k = Some w →
       ∃ lT lR,
         fig_lines cT !! k = Some lT ∧ fig_lines cR !! k = Some lR ∧
         label lT = w ∧ label lR = w ∧
         colors !! k = Some (color lT) ∧ colors !! k = Some (color lR)) ∧
    (∀ l1 l2, l1 ∈ fig_lines cT ++ fig_lines cR → l2 ∈ fig_lines cT ++ fig_lines cR →
       color l1 = color l2 ↔ label l1 = label l2).
Proof.
  intros Hready [_ Hfew]. rewrite <- length_workloads_of in *.
  destruct (unique_first_occurrence_order (Workload <$> t)) as (Hnd & Hel & _).
  fold (workloads_of t) in Hnd, Hel.
  exists (state_success files installed t), [darkgrid],
         (throughput_chart t), (response_time_chart t).
  split; [|split; [|split; [|split; [|split]]]].
  - rewrite (run_ready _ _ t) by done. by rewrite decide_True by lia.
  - apply state_success_images.
  - apply state_success_images.
  - intros c Hc.
    assert (Hlab : label <$> fig_lines c = workloads_of t).
    { apply elem_of_cons in Hc as [->|Hc]; [by apply drawn_full|].
      apply list_elem_of_singleton in Hc as ->. by apply drawn_full. }
    split; [by rewrite Hlab|]. split; [|by rewrite Hlab].
    by rewrite <- (length_fmap label), Hlab.
  - intros k w Hw. cbn [throughput_chart response_time_chart fig_lines].
    assert (Hk : k < 4) by (apply lookup_lt_Some in Hw; lia).
    destruct (colors_lookup_lt k Hk) as [c Hc].
    exists (series AvgThroughput t w c), (series AvgResponseTime t w c).
    rewrite !drawn_lookup, Hw, Hc. done.
  - cbn [throughput_chart response_time_chart fig_lines].
    assert (Hin : ∀ l, l ∈ drawn AvgThroughput t ++ drawn AvgResponseTime t →
              ∃ k, workloads_of t !! k = Some (label l) ∧ colors !! k = Some (color l)).
    { intros l [H|H]%elem_of_app;
        apply elem_of_drawn in H as (k & w & c & Hw & Hc & ->); by exists k. }
    intros l1 l2 (k1 & Hw1 & Hc1)%Hin (k2 & Hw2 & Hc2)%Hin. split; intros Heq.
    + rewrite Heq in Hc1.
      assert (k1 = k2) by (eapply NoDup_lookup; [apply NoDup_colors|done..]).
      congruence.
    + rewrite Heq in Hw1.
      assert (k1 = k2) by (eapply NoDup_lookup; [apply Hnd|done..]).
      congruence.
Qed.

Lemma two_to_four_workloads_colors_witness :
  ready (only_input three_workloads) with_darkgrid three_workloads ∧
  2 ≤ distinct_workloads three_workloads ≤ 4 ∧
  ∃ s' sty cT cR,
    run (only_input three_workloads) with_darkgrid = (Returned tt, s') ∧
    fs s' !! thr_png = Some (Png sty cT) ∧
    fs s' !! rt_png = Some (Png sty cR) ∧
    (∀ c, c ∈ [cT; cR] →
       NoDup (label <$> fig_lines c) ∧
       length (fig_lines c) = distinct_workloads three_workloads ∧
       ∀ w, w ∈ label <$> fig_lines c ↔ w ∈ Workload <$> three_workloads) ∧
    (∀ k w, workloads_of three_workloads !! k = Some w →
       ∃ lT lR,
         fig_lines cT !! k = Some lT ∧ fig_lines cR !! k = Some lR ∧
         label lT = w ∧ label lR = w ∧
         colors !! k = Some (color lT) ∧ colors !! k = Some (color lR)) ∧
    (∀ l1 l2, l1 ∈ fig_lines cT ++ fig_lines cR → l2 ∈ fig_lines cT ++ fig_lines cR →
       color l1 = color l2 ↔ label l1 = label l2).
Proof.
  assert (Hr : ready (only_input three_workloads) with_darkgrid three_workloads)
    by apply ready_only_input.
  assert (Hn : 2 ≤ distinct_workloads three_workloads ≤ 4) by (vm_compute; lia).
  split; [exact Hr|]. split; [exact Hn|].
  exact (two_to_four_workloads_colors _ _ _ Hr Hn).
Defined.

(** C5. If the input file does not exist, the run ends with an uncaught
    [FileNotFoundError] and a nonzero status; the load comes before the
    directory creation, so the file system is as it was (no plots
    directory has appeared), and nothing was logged or printed. *)
Theorem missing_input_no_side_effect files installed :
  files !! csv_path = None →
  ∃ o s',
    run files installed = (o, s') ∧
    o = Raised (FileNotFoundError csv_path) ∧
    exit_status o ≠ 0%Z ∧
    fs s' = files ∧
    fs s' !! plots_dir = files !! plots_dir ∧
    log s' = [] ∧
    stdout s' = [].
Proof.
  intros H. eexists _, _. split; [by apply run_missing_input|]. done.
Qed.

Lemma missing_input_no_side_effect_witness :
  (∅ : gmap string node) !! csv_path = None ∧
  ∃ o s',
    run ∅ with_darkgrid = (o, s') ∧
    o = Raised (FileNotFoundError csv_path) ∧
    exit_status o ≠ 0%Z ∧
    fs s' = ∅ ∧
    fs s' !! plots_dir = (∅ : gmap string node) !! plots_dir ∧
    log s' = [] ∧
    stdout s' = [].
Proof.
  assert (H : (∅ : gmap string node) !! csv_path = None) by reflexivity.
  split; [exact H|].
  exact (missing_input_no_side_effect ∅ with_darkgrid H).
Defined.

(** C6. The run is a function of the input table alone: in any two
    environments that hold the same table, the outcome, the whole log
    (the series with their colours and labels, the axis labels and titles,
    the paths saved to) and the console output are the same, and after a
    run that returns the two images are the same.  In particular a second
    run on the files the first has left returns and writes the images the
    first has written. *)
Theorem runs_on_same_input_agree files1 installed1 files2 installed2 t :
  ready files1 installed1 t →
  ready files2 installed2 t →
  ∃ o s1 s2,
    run files1 installed1 = (o, s1) ∧
    run files2 installed2 = (o, s2) ∧
    log s1 = log s2 ∧
    stdout s1 = stdout s2 ∧
    (o = Returned tt →
       fs s1 !! thr_png = fs s2 !! thr_png ∧ is_Some (fs s1 !! thr_png) ∧
       fs s1 !! rt_png = fs s2 !! rt_png ∧ is_Some (fs s1 !! rt_png) ∧
       ready (fs s1) installed1 t ∧
       ∃ s3, run (fs s1) installed1 = (o, s3) ∧ fs s3 = fs s1).
Proof.
  intros H1 H2. rewrite (run_ready _ _ t H1), (run_ready _ _ t H2).
  case_decide as Hle; eexists _, _, _; (split; [reflexivity|]);
    (split; [reflexivity|]); (split; [reflexivity|]); (split; [reflexivity|]);
    [|done].
  intros _.
  destruct (state_success_images files1 installed1 t) as [-> ->].
  destruct (state_success_images files2 installed2 t) as [-> ->].
  split; [done|]. split; [done|]. split; [done|]. split; [done|].
  cbn [state_success fs].
  split; [by apply ready_files_success|].
  eexists. rewrite (run_ready _ _ t) by (by apply ready_files_success).
  rewrite decide_True by done. split; [reflexivity|].
  apply files_success_idemp.
Qed.

Lemma runs_on_same_input_agree_witness :
  ready (only_input three_workloads) with_darkgrid three_workloads ∧
  ready (used_before three_workloads) more_styles three_workloads ∧
  ∃ o s1 s2,
    run (only_input three_workloads) with_darkgrid = (o, s1) ∧
    run (used_before three_workloads) more_styles = (o, s2) ∧
    log s1 = log s2 ∧
    stdout s1 = stdout s2 ∧
    (o = Returned tt →
       fs s1 !! thr_png = fs s2 !! thr_png ∧ is_Some (fs s1 !! thr_png) ∧
       fs s1 !! rt_png = fs s2 !! rt_png ∧ is_Some (fs s1 !! rt_png) ∧
       ready (fs s1) with_darkgrid three_workloads ∧
       ∃ s3, run (fs s1) with_darkgrid = (o, s3) ∧ fs s3 = fs s1).
Proof.
  assert (H1 : ready (only_input three_workloads) with_darkgrid three_workloads)
    by apply ready_only_input.
  assert (H2 : ready (used_before three_workloads) more_styles three_workloads)
    by apply ready_used_before.
  split; [exact H1|]. split; [exact H2|].
  exact (runs_on_same_input_agree _ _ _ _ _ H1 H2).
Defined.

(** C7. For the two rows (A, 1, 100, 10) and (A, 2, 190, 12) the
    throughput chart saved has exactly one line, and its points are
    (1, 100) and (2, 190). *)
Theorem example_throughput_line files installed :
  ready files installed example_rows →
  ∃ s' sty c l,
    run files installed = (Returned tt, s') ∧
    fs s' !! thr_png = Some (Png sty c) ∧
    fig_lines c = [l] ∧
    points l = [(1%Z, Qmake 100 1); (2%Z, Qmake 190 1)].
Proof.
  intros Hready.
  exists (state_success files installed example_rows), [darkgrid],
         (throughput_chart example_rows).
  eexists. split; [|split; [|split]].
  - by rewrite (run_ready _ _ example_rows) by done.
  - apply state_success_images.
  - reflexivity.
  - reflexivity.
Qed.

Lemma example_throughput_line_witness :
  ready (only_input example_rows) with_darkgrid example_rows ∧
  ∃ s' sty c l,
    run (only_input example_rows) with_darkgrid = (Returned tt, s') ∧
    fs s' !! thr_png = Some (Png sty c) ∧
    fig_lines c = [l] ∧
    points l = [(1%Z, Qmake 100 1); (2%Z, Qmake 190 1)].
Proof.
  assert (Hr : ready (only_input example_rows) with_darkgrid example_rows)
    by apply ready_only_input.
  split; [exact Hr|].
  exact (example_throughput_line _ _ Hr).
Defined.

(** C8. In every run, whatever the environment, the images saved are, in
    order, none, the throughput image alone, or the throughput image and
    then the response-time image: the response-time image is never saved
    without the throughput image saved before it.  [IndexError] comes
    from a palette access in the first chart's loop (one figure has been
    opened), and then nothing has been saved. *)
Theorem throughput_saved_before_response_time files installed :
  ∃ o s',
    run files installed = (o, s') ∧
    (saved (log s') = [] ∨ saved (log s') = [thr_png] ∨
     (saved (log s') = [thr_png; rt_png] ∧ o = Returned tt)) ∧
    (o = Raised IndexError →
       length (figures_drawn (log s')) = 1 ∧ saved (log s') = []).
Proof.
  unfold run, script, boot.
  rewrite bind_run. unfold pd.read_csv at 1. cbn [fs].
  destruct (files !! csv_path) as [[t| |sty c]|] eqn:Hin; [|stopped..].
  unfold emit at 1. cbn [fs styles rc figs stdout log].
  destruct (makedirs_cases (files !! plots_dir)) as [Hdir|[Hd1 Hd2]]; cycle 1.
  { rewrite bind_run, makedirs_blocked by done. stopped. }
  step_with makedirs_ready; [|done].
  destruct (decide (darkgrid ∈ installed)) as [Hsty|Hsty]; cycle 1.
  { rewrite bind_run, style_use_missing by done. stopped. }
  step_with style_use_run; [|done].
  step.
  rewrite bind_run. unfold enumerate at 1.
  rewrite (for_in_plot_workload AvgThroughput t) by lia.
  rewrite foldl_draw.
  cbn [fig_size fig_lines fig_xlabel fig_ylabel fig_title fig_legend new_chart app].
  fold (workloads_of t). fold (drawn AvgThroughput t).
  destruct (decide (0 + length (workloads_of t) ≤ 4)) as [Hle|Hgt]; cycle 1.
  { eexists _, (state_failure files installed t). split; [reflexivity|].
    cbn [state_failure log]. rewrite saved_log_failure, figures_drawn_log_failure.
    auto. }
  do 4 step.
  assert (Hplots : <[plots_dir := Directory]> files !! os.dirname thr_png = Some Directory)
    by (by rewrite dirname_thr_png, lookup_insert_eq).
  destruct (directory_or_not (files !! thr_png)) as [Hthr|Hthr].
  { rewrite bind_run, savefig_blocked; [|done|by rewrite lookup_insert_ne]. stopped. }
  step_with savefig_ready; [|done|by rewrite lookup_insert_ne].
  do 2 step.
  rewrite bind_run. unfold enumerate at 1.
  rewrite (for_in_plot_workload AvgResponseTime t) by lia.
  rewrite foldl_draw, decide_True by lia.
  cbn [fig_size fig_lines fig_xlabel fig_ylabel fig_title fig_legend new_chart app].
  do 4 step.
  match goal with
  | |- context [State ?m _ _ _ _ _] =>
      assert (Hplots' : m !! os.dirname rt_png = Some Directory)
        by (rewrite dirname_rt_png, lookup_insert_ne by done; apply lookup_insert_eq)
  end.
  destruct (directory_or_not (files !! rt_png)) as [Hrt|Hrt].
  { rewrite bind_run, savefig_blocked; [|done|by rewrite !lookup_insert_ne]. stopped. }
  step_with savefig_ready; [|done|by rewrite !lookup_insert_ne].
  step. rewrite print_run. stopped.
Qed.

(** C9. For an input with the header row only (no data rows) the run
    returns: there is no workload, neither loop plots a line, both images
    are saved, each of a chart without lines, and the success message is
    printed. *)
Theorem header_only_success files installed :
  ready files installed [] →
  workloads_of [] = [] ∧
  ∃ s' cT cR,
    run files installed = (Returned tt, s') ∧
    figures_drawn (log s') = [[]; []] ∧
    fs s' !! thr_png = Some (Png [darkgrid] cT) ∧ fig_lines cT = [] ∧
    fs s' !! rt_png = Some (Png [darkgrid] cR) ∧ fig_lines cR = [] ∧
    saved (log s') = [thr_png; rt_png] ∧
    stdout s' = [success_msg].
Proof.
  intros Hready. split; [done|].
  exists (state_success files installed []), (throughput_chart []), (response_time_chart []).
  split; [|split; [|split; [|split; [|split; [|split; [|split]]]]]]; try done.
  - by rewrite (run_ready _ _ []) by done.
  - apply state_success_images.
  - apply state_success_images.
Qed.

Lemma header_only_success_witness :
  ready (only_input []) with_darkgrid [] ∧
  workloads_of [] = [] ∧
  ∃ s' cT cR,
    run (only_input []) with_darkgrid = (Returned tt, s') ∧
    figures_drawn (log s') = [[]; []] ∧
    fs s' !! thr_png = Some (Png [darkgrid] cT) ∧ fig_lines cT = [] ∧
    fs s' !! rt_png = Some (Png [darkgrid] cR) ∧ fig_lines cR = [] ∧
    saved (log s') = [thr_png; rt_png] ∧
    stdout s' = [success_msg].
Proof.
  assert (Hr : ready (only_input []) with_darkgrid []) by apply ready_only_input.
  split; [exact Hr|].
  exact (header_only_success _ _ Hr).
Defined.

(** C10. Once the input has been loaded, the plots directory is created
    (or found, when it is there already) before any figure is opened: the
    log starts with the load and the directory creation.  The directory
    is there after the run whatever its outcome; when the palette is
    exhausted (more than 4 workloads) the run has raised [IndexError],
    nothing has been saved and the image paths hold what they held. *)
Theorem plots_dir_created_before_drawing files installed t :
  ready files installed t →
  ∃ o s' rest,
    run files installed = (o, s') ∧
    log s' = ReadCsv csv_path :: Makedirs plots_dir :: rest ∧
    figures_drawn (log s') = figures_drawn rest ∧
    saved (log s') = saved rest ∧
    fs s' !! plots_dir = Some Directory ∧
    (4 < distinct_workloads t →
       o = Raised IndexError ∧
       saved (log s') = [] ∧
       fs s' !! thr_png = files !! thr_png ∧
       fs s' !! rt_png = files !! rt_png).
Proof.
  intros Hready. rewrite <- length_workloads_of.
  rewrite (run_ready _ _ t) by done.
  case_decide as Hle; eexists _, _, _; (split; [reflexivity|]);
    (split; [reflexivity|]); (split; [reflexivity|]); (split; [reflexivity|]).
  - split; [|lia]. cbn [state_success fs]. unfold files_success.
    rewrite !lookup_insert_ne by done. apply lookup_insert_eq.
  - split; [apply lookup_insert_eq|]. intros _.
    split; [done|]. split; [apply saved_log_failure|].
    apply state_failure_images.
Qed.

Lemma plots_dir_created_before_drawing_witness :
  ready (only_input six_workloads) with_darkgrid six_workloads ∧
  ∃ o s' rest,
    run (only_input six_workloads) with_darkgrid = (o, s') ∧
    log s' = ReadCsv csv_path :: Makedirs plots_dir :: rest ∧
    figures_drawn (log s') = figures_drawn rest ∧
    saved (log s') = saved rest ∧
    fs s' !! plots_dir = Some Directory ∧
    (4 < distinct_workloads six_workloads →
       o = Raised IndexError ∧
       saved (log s') = [] ∧
       fs s' !! thr_png = only_input six_workloads !! thr_png ∧
       fs s' !! rt_png = only_input six_workloads !! rt_png).
Proof.
  assert (Hr : ready (only_input six_workloads) with_darkgrid six_workloads)
    by apply ready_only_input.
  split; [exact Hr|].
  exact (plots_dir_created_before_drawing _ _ _ Hr).
Defined.

(** * Further properties of the script *)

(** ** Every run, classified *)

Ltac ends_by c :=
  eexists _, _; split; [reflexivity|];
  match goal with
  | |- ends _ _ _ (State _ _ _ _ _ ?lg) =>
      let H := fresh in
      eassert (H : lg = _);
      [cbn [app]; rewrite <- ?app_assoc; reflexivity
      |try rewrite H; clear H; eapply c; eauto]
  end.

Lemma run_ends files installed :
  ∃ o s', run files installed = (o, s') ∧ ends files installed o s'.
Proof.
  unfold run, script, boot.
  rewrite bind_run. unfold pd.read_csv at 1. cbn [fs].
  destruct (files !! csv_path) as [[t| |sty c]|] eqn:Hin.
  2:{ eexists _, _. split; [reflexivity|]. by apply ends_input_directory. }
  2:{ eexists _, _. split; [reflexivity|]. by eapply ends_input_image. }
  2:{ eexists _, _. split; [reflexivity|]. by apply ends_input_missing. }
  unfold emit at 1. cbn [fs styles rc figs stdout log].
  destruct (makedirs_cases (files !! plots_dir)) as [Hdir|[Hd1 Hd2]]; cycle 1.
  { rewrite bind_run, makedirs_blocked by done. ends_by ends_plots_blocked. }
  step_with makedirs_ready; [|done].
  destruct (decide (darkgrid ∈ installed)) as [Hsty|Hsty]; cycle 1.
  { rewrite bind_run, style_use_missing by done. ends_by ends_style_missing. }
  step_with style_use_run; [|done].
  step.
  rewrite bind_run. unfold enumerate at 1.
  rewrite (for_in_plot_workload AvgThroughput t) by lia.
  rewrite foldl_draw.
  cbn [fig_size fig_lines fig_xlabel fig_ylabel fig_title fig_legend new_chart app].
  fold (workloads_of t). fold (drawn AvgThroughput t).
  destruct (decide (0 + length (workloads_of t) ≤ 4)) as [Hle|Hgt]; cycle 1.
  { eexists _, _. split; [reflexivity|].
    apply (ends_palette _ _ t); auto with lia. }
  do 4 step.
  assert (Hplots : <[plots_dir := Directory]> files !! os.dirname thr_png = Some Directory)
    by (by rewrite dirname_thr_png, lookup_insert_eq).
  destruct (directory_or_not (files !! thr_png)) as [Hthr|Hthr].
  { rewrite bind_run, savefig_blocked; [|done|by rewrite lookup_insert_ne].
    ends_by ends_first_save. }
  step_with savefig_ready; [|done|by rewrite lookup_insert_ne].
  do 2 step.
  rewrite bind_run. unfold enumerate at 1.
  rewrite (for_in_plot_workload AvgResponseTime t) by lia.
  rewrite foldl_draw, decide_True by lia.
  cbn [fig_size fig_lines fig_xlabel fig_ylabel fig_title fig_legend new_chart app].
  fold (workloads_of t). fold (drawn AvgResponseTime t).
  do 4 step.
  match goal with
  | |- context [State ?m _ _ _ _ _] =>
      assert (Hplots' : m !! os.dirname rt_png = Some Directory)
        by (rewrite dirname_rt_png, lookup_insert_ne by done; apply lookup_insert_eq)
  end.
  destruct (directory_or_not (files !! rt_png)) as [Hrt|Hrt].
  { rewrite bind_run, savefig_blocked; [|done|by rewrite !lookup_insert_ne].
    ends_by ends_second_save. }
  step_with savefig_ready; [|done|by rewrite !lookup_insert_ne].
  step. rewrite print_run.
  eexists _, _. split; [reflexivity|].
  match goal with
  | |- ends _ _ _ (State _ _ _ _ _ ?lg) =>
      replace lg with (log_success t)
        by (unfold log_success, log_until_loop; cbn [app];
            rewrite <- !app_assoc; reflexivity)
  end.
  apply (ends_returned _ _ t); [by split|lia].
Qed.

(** ** Reading the plotted lines off a log *)

Lemma plotted_app tr1 tr2 : plotted (tr1 ++ tr2) = plotted tr1 ++ plotted tr2.
Proof.
  induction tr1 as [|ev tr1 IH]; [done|].
  destruct ev; cbn [app plotted]; by rewrite ?IH.
Qed.

Lemma plotted_plots ls : plotted (Plot <$> ls) = ls.
Proof. induction ls as [|l ls IH]; [done|]. rewrite fmap_cons. cbn. by rewrite IH. Qed.

Lemma elem_of_plotted tr l : Plot l ∈ tr ↔ l ∈ plotted tr.
Proof.
  induction tr as [|ev tr IH]; [by rewrite !elem_of_nil|].
  destruct ev; cbn [plotted]; rewrite ?elem_of_cons, IH; naive_solver.
Qed.

(** Whatever way the run ends, the lines plotted are lines of [drawn]. *)
Lemma plotted_ends files installed o s' l :
  ends files installed o s' →
  l ∈ plotted (log s') →
  ∃ t metric, files !! csv_path = Some (CsvFile t) ∧ l ∈ drawn metric t.
Proof.
  intros Hends.
  destruct Hends as [?|?|? ? ?|t ? ? ?|t ? ? ?|t ? ? ? ?|t ? ? ? ? ?|t ? ? ? ? ? ?|t [? ? ? ? ?] ?];
    cbn [boot log state_failure state_success plotted];
    unfold log_failure, log_success, log_first_save, log_second_save, log_until_loop;
    rewrite ?plotted_app, ?plotted_plots; cbn [plotted app];
    rewrite ?plotted_app, ?plotted_plots; cbn [plotted app];
    rewrite ?app_nil_r, ?elem_of_app, ?elem_of_nil; naive_solver.
Qed.

(** ** What a run leaves alone, and what it leaves behind *)

(** X1. Whatever the environment and however the run ends, every path
    other than the plots directory and the two image paths holds after
    the run what it held before; the input file in particular is never
    changed. *)
Theorem other_paths_untouched files installed p :
  p ≠ plots_dir → p ≠ thr_png → p ≠ rt_png →
  fs (run files installed).2 !! p = files !! p.
Proof.
  intros H1 H2 H3.
  destruct (run_ends files installed) as (o & s' & -> & Hends). cbn [snd].
  destruct Hends; cbn [boot fs state_failure state_success];
    unfold files_success; by rewrite ?lookup_insert_ne by done.
Qed.

Lemma other_paths_untouched_witness :
  csv_path ≠ plots_dir ∧ csv_path ≠ thr_png ∧ csv_path ≠ rt_png ∧
  fs (run (only_input three_workloads) with_darkgrid).2 !! csv_path
  = only_input three_workloads !! csv_path.
Proof.
  assert (H1 : csv_path ≠ plots_dir) by discriminate.
  assert (H2 : csv_path ≠ thr_png) by discriminate.
  assert (H3 : csv_path ≠ rt_png) by discriminate.
  split; [exact H1|]. split; [exact H2|]. split; [exact H3|].
  exact (other_paths_untouched (only_input three_workloads) with_darkgrid _ H1 H2 H3).
Defined.

(** X2. Whatever the environment, the success message is printed exactly
    when the run returns; a run that raises has printed nothing. *)
Theorem message_printed_only_on_return files installed :
  ∃ o s',
    run files installed = (o, s') ∧
    stdout s' = match o with
                | Returned _ => [success_msg]
                | Raised _ => []
                end.
Proof.
  destruct (run_ends files installed) as (o & s' & Hrun & Hends).
  exists o, s'. split; [done|]. by destruct Hends.
Qed.

(** X3. Whatever the environment, a run that returns has closed both its
    figures, and a run that raises leaves at most one figure open. *)
Theorem figures_closed_on_return files installed :
  ∃ o s',
    run files installed = (o, s') ∧
    length (figs s') ≤ 1 ∧
    (o = Returned tt → figs s' = []).
Proof.
  destruct (run_ends files installed) as (o & s' & Hrun & Hends).
  exists o, s'. split; [done|].
  destruct Hends; cbn [boot figs state_failure state_success length];
    (split; [lia|done]).
Qed.

(** X4. Whatever the environment, every [plt.plot] call of a run gets x
    and y data of the same length, the marker "o", a colour of the
    palette and, as label, a Workload value of the input table. *)
Theorem plot_arguments_well_formed files installed l :
  Plot l ∈ log (run files installed).2 →
  length (xdata l) = length (ydata l) ∧
  marker l = "o" ∧
  color l ∈ colors ∧
  ∃ t, files !! csv_path = Some (CsvFile t) ∧ label l ∈ Workload <$> t.
Proof.
  destruct (run_ends files installed) as (o & s' & -> & Hends). cbn [snd].
  intros Hl%elem_of_plotted.
  destruct (plotted_ends _ _ _ _ _ Hends Hl) as (t & metric & Hin & Hd).
  apply elem_of_drawn in Hd as (k & w & c & Hw & Hc & ->).
  cbn [series xdata ydata marker color label].
  split; [by rewrite !length_fmap|]. split; [done|].
  split; [by eapply list_elem_of_lookup_2|].
  exists t. split; [done|].
  apply list_elem_of_lookup_2 in Hw.
  by apply (unique_first_occurrence_order (Workload <$> t)).
Qed.

Lemma plot_arguments_well_formed_witness :
  let l := Line [1%Z; 2%Z] [Qmake 100 1; Qmake 190 1] "o" "A" "tab:blue" in
  Plot l ∈ log (run (only_input example_rows) with_darkgrid).2 ∧
  length (xdata l) = length (ydata l) ∧
  marker l = "o" ∧
  color l ∈ colors ∧
  ∃ t, only_input example_rows !! csv_path = Some (CsvFile t) ∧
       label l ∈ Workload <$> t.
Proof.
  intros l.
  assert (H : Plot l ∈ log (run (only_input example_rows) with_darkgrid).2).
  { assert (E : log (run (only_input example_rows) with_darkgrid).2
                = log_success example_rows) by (by vm_compute).
    rewrite E. do 4 apply list_elem_of_further. apply list_elem_of_here. }
  split; [exact H|].
  exact (plot_arguments_well_formed _ _ l H).
Defined.

(** ** When a run returns, and when the palette fails *)

(** X7. Whatever the environment, the run raises [IndexError] exactly
    when the input file holds a table of more than 4 distinct workloads,
    the plots path is free or a directory and the style sheet is
    installed: the palette is the only source of that error, and nothing
    at the image paths can prevent it. *)
Theorem index_error_iff files installed :
  (run files installed).1 = Raised IndexError ↔
  ∃ t, files !! csv_path = Some (CsvFile t) ∧
       (files !! plots_dir = None ∨ files !! plots_dir = Some Directory) ∧
       darkgrid ∈ installed ∧
       4 < distinct_workloads t.
Proof.
  destruct (run_ends files installed) as (o & s' & -> & Hends). cbn [fst].
  split.
  - intros ->. inversion Hends; subst.
    exists t. rewrite <- length_workloads_of. done.
  - intros (t & Hin & Hdir & Hsty & Hmany). rewrite <- length_workloads_of in Hmany.
    destruct Hends as [?|?|? ? ?|t' ? ? ?|t' ? ? ?|t' ? ? ? ?|t' ? ? ? ? ?
                      |t' ? ? ? ? ? ?|t' [? ? ? ? ?] ?];
      simplify_eq; try done; try lia; naive_solver.
Qed.

(** X8. Whatever the environment, the run returns exactly when the
    environment is ready for some table of at most 4 distinct workloads:
    the conditions of [ready] are not only enough, they are needed. *)
Theorem returns_iff_ready files installed :
  (run files installed).1 = Returned tt ↔
  ∃ t, ready files installed t ∧ distinct_workloads t ≤ 4.
Proof.
  split.
  - destruct (run_ends files installed) as (o & s' & -> & Hends). cbn [fst].
    intros ->. inversion Hends; subst.
    exists t. by rewrite <- length_workloads_of.
  - intros (t & Hready & Hfew). rewrite <- length_workloads_of in Hfew.
    rewrite (run_ready _ _ t) by done. by rewrite decide_True.
Qed.

(** ** Failures before the first figure *)

(** X6. When the input loads and the directory can be made but the style
    sheet is not installed, the run raises [OSError] after the plots
    directory has been created: the directory is there, no figure has
    been opened, nothing has been saved or printed. *)
Theorem style_missing_leaves_directory files installed t :
  files !! csv_path = Some (CsvFile t) →
  files !! plots_dir = None ∨ files !! plots_dir = Some Directory →
  darkgrid ∉ installed →
  ∃ s',
    run files installed = (Raised (OSError darkgrid), s') ∧
    fs s' = <[plots_dir := Directory]> files ∧
    log s' = [ReadCsv csv_path; Makedirs plots_dir] ∧
    figs s' = [] ∧
    stdout s' = [].
Proof.
  intros Hin Hdir Hsty. unfold run, script, boot.
  rewrite bind_run. unfold pd.read_csv at 1. cbn [fs]. rewrite Hin.
  unfold emit at 1. cbn [fs styles rc figs stdout log].
  step_with makedirs_ready; [|done].
  rewrite bind_run, style_use_missing by done.
  eexists. split; [reflexivity|]. done.
Qed.

Lemma style_missing_leaves_directory_witness :
  only_input example_rows !! csv_path = Some (CsvFile example_rows) ∧
  (only_input example_rows !! plots_dir = None ∨
   only_input example_rows !! plots_dir = Some Directory) ∧
  (darkgrid ∉ (∅ : gset string)) ∧
  ∃ s',
    run (only_input example_rows) ∅ = (Raised (OSError darkgrid), s') ∧
    fs s' = <[plots_dir := Directory]> (only_input example_rows) ∧
    log s' = [ReadCsv csv_path; Makedirs plots_dir] ∧
    figs s' = [] ∧
    stdout s' = [].
Proof.
  assert (H1 : only_input example_rows !! csv_path = Some (CsvFile example_rows))
    by reflexivity.
  assert (H2 : only_input example_rows !! plots_dir = None ∨
               only_input example_rows !! plots_dir = Some Directory)
    by (left; reflexivity).
  assert (H3 : darkgrid ∉ (∅ : gset string)) by apply not_elem_of_empty.
  split; [exact H1|]. split; [exact H2|]. split; [exact H3|].
  exact (style_missing_leaves_directory _ _ _ H1 H2 H3).
Defined.

(** X10. When the input loads but something other than a directory sits
    at the plots path, the run raises [FileExistsError] although
    [exist_ok] is set, and the file system is as it was. *)
Theorem plots_path_occupied files installed t :
  files !! csv_path = Some (CsvFile t) →
  files !! plots_dir ≠ None →
  files !! plots_dir ≠ Some Directory →
  ∃ s',
    run files installed = (Raised (FileExistsError plots_dir), s') ∧
    fs s' = files ∧
    log s' = [ReadCsv csv_path] ∧
    stdout s' = [].
Proof.
  intros Hin Hd1 Hd2. unfold run, script, boot.
  rewrite bind_run. unfold pd.read_csv at 1. cbn [fs]. rewrite Hin.
  unfold emit at 1. cbn [fs styles rc figs stdout log].
  rewrite bind_run, makedirs_blocked by done.
  eexists. split; [reflexivity|]. done.
Qed.

Lemma plots_path_occupied_witness :
  plots_is_a_file example_rows !! csv_path = Some (CsvFile example_rows) ∧
  plots_is_a_file example_rows !! plots_dir ≠ None ∧
  plots_is_a_file example_rows !! plots_dir ≠ Some Directory ∧
  ∃ s',
    run (plots_is_a_file example_rows) with_darkgrid
      = (Raised (FileExistsError plots_dir), s') ∧
    fs s' = plots_is_a_file example_rows ∧
    log s' = [ReadCsv csv_path] ∧
    stdout s' = [].
Proof.
  assert (H1 : plots_is_a_file example_rows !! csv_path = Some (CsvFile example_rows))
    by reflexivity.
  assert (H2 : plots_is_a_file example_rows !! plots_dir ≠ None)
    by (vm_compute; discriminate).
  assert (H3 : plots_is_a_file example_rows !! plots_dir ≠ Some Directory)
    by (vm_compute; discriminate).
  split; [exact H1|]. split; [exact H2|]. split; [exact H3|].
  exact (plots_path_occupied _ _ _ H1 H2 H3).
Defined.

(** ** Grouping loses no row *)

Lemma points_series_point_of metric df w c :
  points (series metric df w c) =
  point_of metric <$> filter (λ r, Workload r = w) df.
Proof. apply points_series. Qed.

(** When the palette covers the workloads, the points drawn are those of
    the groups, one group after the other. *)
Lemma points_lines_from metric df ws : ∀ i,
  i + length ws ≤ 4 →
  concat (points <$> lines_from metric df i ws) =
  concat ((λ w, point_of metric <$> filter (λ r, Workload r = w) df) <$> ws).
Proof.
  induction ws as [|w ws IH]; intros i Hi; [done|]. cbn [length] in Hi.
  cbn [lines_from].
  destruct (colors_lookup_lt i) as [c ->]; [lia|].
  rewrite !fmap_cons. cbn [concat].
  rewrite points_series_point_of, IH by lia. done.
Qed.

Lemma filter_other_workload (w w' : string) (t : table) :
  w' ≠ w →
  filter (λ r, Workload r = w') (filter (λ r, Workload r ≠ w) t) =
  filter (λ r, Workload r = w') t.
Proof.
  intros Hne. induction t as [|r t IH]; [done|].
  rewrite (filter_cons (λ r, Workload r ≠ w)).
  rewrite (filter_cons (λ r, Workload r = w') r t).
  destruct (decide (Workload r = w')) as [Heq|Hneq].
  - rewrite decide_True by congruence.
    rewrite filter_cons, decide_True by done. by rewrite IH.
  - case_decide; [|done].
    rewrite filter_cons, decide_False by done. done.
Qed.

(** The groups of a list of distinct workloads that covers the table
    hold every row once. *)
Lemma groups_partition metric (ws : list string) : ∀ t : table,
  NoDup ws →
  (∀ r, r ∈ t → Workload r ∈ ws) →
  concat ((λ w, point_of metric <$> filter (λ r, Workload r = w) t) <$> ws)
  ≡ₚ point_of metric <$> t.
Proof.
  induction ws as [|w ws IH]; intros t Hnd Hcover.
  - destruct t as [|r t]; [done|].
    specialize (Hcover r (list_elem_of_here _ _)). by apply elem_of_nil in Hcover.
  - apply NoDup_cons in Hnd as [Hw Hnd].
    rewrite fmap_cons. cbn [concat].
    assert (Hrest :
      (λ w0, point_of metric <$> filter (λ r, Workload r = w0) t) <$> ws =
      (λ w0, point_of metric <$>
               filter (λ r, Workload r = w0) (filter (λ r, Workload r ≠ w) t)) <$> ws).
    { apply Forall_fmap_ext, Forall_forall. intros w' Hw'.
      rewrite filter_other_workload; [done|]. by intros ->. }
    rewrite Hrest, IH; [|done|].
    + rewrite <- fmap_app. apply fmap_Permutation, filter_app_complement.
    + intros r [Hrw Hr]%list_elem_of_filter.
      apply Hcover, elem_of_cons in Hr as [Heq|Hin]; [done|done].
Qed.

(** X5. For every input table with at most 4 distinct workloads, each
    saved chart plots every row of the table exactly once: the points of
    its lines, taken together, are a rearrangement of the table's
    (Threads, metric) pairs. *)
Theorem every_row_plotted_once files installed t :
  ready files installed t →
  distinct_workloads t ≤ 4 →
  ∃ s' sty cT cR,
    run files installed = (Returned tt, s') ∧
    fs s' !! thr_png = Some (Png sty cT) ∧
    fs s' !! rt_png = Some (Png sty cR) ∧
    concat (points <$> fig_lines cT) ≡ₚ point_of AvgThroughput <$> t ∧
    concat (points <$> fig_lines cR) ≡ₚ point_of AvgResponseTime <$> t.
Proof.
  intros Hready Hfew. rewrite <- length_workloads_of in Hfew.
  destruct (unique_first_occurrence_order (Workload <$> t)) as (Hnd & Hel & _).
  fold (workloads_of t) in Hnd, Hel.
  assert (Hcover : ∀ r, r ∈ t → Workload r ∈ workloads_of t).
  { intros r Hr. apply Hel. by apply list_elem_of_fmap_2. }
  exists (state_success files installed t), [darkgrid],
         (throughput_chart t), (response_time_chart t).
  split; [|split; [|split; [|split]]].
  - rewrite (run_ready _ _ t) by done. by rewrite decide_True by lia.
  - apply state_success_images.
  - apply state_success_images.
  - cbn [throughput_chart fig_lines]. unfold drawn.
    rewrite points_lines_from by (simpl; lia). by apply groups_partition.
  - cbn [response_time_chart fig_lines]. unfold drawn.
    rewrite points_lines_from by (simpl; lia). by apply groups_partition.
Qed.

Lemma every_row_plotted_once_witness :
  ready (only_input three_workloads) with_darkgrid three_workloads ∧
  distinct_workloads three_workloads ≤ 4 ∧
  ∃ s' sty cT cR,
    run (only_input three_workloads) with_darkgrid = (Returned tt, s') ∧
    fs s' !! thr_png = Some (Png sty cT) ∧
    fs s' !! rt_png = Some (Png sty cR) ∧
    concat (points <$> fig_lines cT) ≡ₚ point_of AvgThroughput <$> three_workloads ∧
    concat (points <$> fig_lines cR) ≡ₚ point_of AvgResponseTime <$> three_workloads.
Proof.
  assert (Hr : ready (only_input three_workloads) with_darkgrid three_workloads)
    by apply ready_only_input.
  assert (Hn : distinct_workloads three_workloads ≤ 4) by (vm_compute; lia).
  split; [exact Hr|]. split; [exact Hn|].
  exact (every_row_plotted_once _ _ _ Hr Hn).
Defined.

(** ** The two charts, side by side *)

Lemma lines_from_aligned m1 m2 df ws : ∀ i,
  Forall2 (λ a b, xdata a = xdata b ∧ length (ydata a) = length (ydata b) ∧
                  marker a = marker b ∧ label a = label b ∧ color a = color b)
          (lines_from m1 df i ws) (lines_from m2 df i ws).
Proof.
  induction ws as [|w ws IH]; intros i; cbn [lines_from]; [constructor|].
  destruct (colors !! i) as [c|]; [|constructor].
  constructor; [|apply IH].
  cbn [series xdata ydata marker label color]. by rewrite !length_fmap.
Qed.

(** X9. For every input table with at most 4 distinct workloads, the two
    saved charts have their lines side by side: the k-th line of the
    response-time chart has the x data (client counts), the number of
    points, the marker, the label and the colour of the k-th line of the
    throughput chart. *)
Theorem charts_share_x_data files installed t :
  ready files installed t →
  distinct_workloads t ≤ 4 →
  ∃ s' sty cT cR,
    run files installed = (Returned tt, s') ∧
    fs s' !! thr_png = Some (Png sty cT) ∧
    fs s' !! rt_png = Some (Png sty cR) ∧
    Forall2 (λ a b, xdata a = xdata b ∧ length (ydata a) = length (ydata b) ∧
                    marker a = marker b ∧ label a = label b ∧ color a = color b)
            (fig_lines cT) (fig_lines cR).
Proof.
  intros Hready Hfew. rewrite <- length_workloads_of in Hfew.
  exists (state_success files installed t), [darkgrid],
         (throughput_chart t), (response_time_chart t).
  split; [|split; [|split]].
  - rewrite (run_ready _ _ t) by done. by rewrite decide_True by lia.
  - apply state_success_images.
  - apply state_success_images.
  - apply lines_from_aligned.
Qed.

Lemma charts_share_x_data_witness :
  ready (only_input three_workloads) with_darkgrid three_workloads ∧
  distinct_workloads three_workloads ≤ 4 ∧
  ∃ s' sty cT cR,
    run (only_input three_workloads) with_darkgrid = (Returned tt, s') ∧
    fs s' !! thr_png = Some (Png sty cT) ∧
    fs s' !! rt_png = Some (Png sty cR) ∧
    Forall2 (λ a b, xdata a = xdata b ∧ length (ydata a) = length (ydata b) ∧
                    marker a = marker b ∧ label a = label b ∧ color a = color b)
            (fig_lines cT) (fig_lines cR).
Proof.
  assert (Hr : ready (only_input three_workloads) with_darkgrid three_workloads)
    by apply ready_only_input.
  assert (Hn : distinct_workloads three_workloads ≤ 4) by (vm_compute; lia).
  split; [exact Hr|]. split; [exact Hn|].
  exact (charts_share_x_data _ _ _ Hr Hn).
Defined.
